(** * RAG orchestration core of the notebook
      [notebooks/S1 - Introduction to LangChain and RAG.ipynb]

    A shallow embedding of the executable cells of the notebook: the
    document loader, the vector-store initialisation, the retriever, the
    tool table and the single-round tool-call exchange.  Python calls are
    modelled in a state-and-exception monad.  What lives outside the
    notebook is a parameter (the embedding model, the chat models,
    [open], the unpickler, the two calls into the Chroma library) or a
    small model whose doc comment says where its behaviour is taken
    from. *)

From Stdlib Require Import ZArith Ascii.
From Stdlib Require String.
From stdpp Require Import base option list sorting gmap strings.

Local Open Scope string_scope.
Local Open Scope list_scope.

(** ** Python values and exceptions *)

(** A raised exception: the name of its class and its argument. *)
Record exn := Exn { exn_class : string; exn_arg : string }.

Definition KeyError (key : string) : exn := Exn "KeyError" key.
Definition NameError (name : string) : exn := Exn "NameError" name.
Definition FileNotFoundError (path : string) : exn := Exn "FileNotFoundError" path.
Definition IsADirectoryError (path : string) : exn := Exn "IsADirectoryError" path.
Definition PermissionError (path : string) : exn := Exn "PermissionError" path.
Definition ValueError (message : string) : exn := Exn "ValueError" message.
Definition IndexError (message : string) : exn := Exn "IndexError" message.

(** The outcome of a call: a returned value or a raised exception. *)
Inductive result (A : Type) : Type :=
| Ok (a : A)
| Raise (e : exn).
Arguments Ok {A} a.
Arguments Raise {A} e.

Definition is_Ok {A} (r : result A) : bool :=
  match r with Ok _ => true | Raise _ => false end.

(** A computation over a mutable state [S] that may raise.  The state
    reached when the exception is raised is kept, as in Python. *)
Definition M (S A : Type) : Type := S → result A * S.

Definition M_ret {S A} (a : A) : M S A := λ s, (Ok a, s).

Definition M_bind {S A B} (c : M S A) (k : A → M S B) : M S B :=
  λ s, match c s with
       | (Ok a, s') => k a s'
       | (Raise e, s') => (Raise e, s')
       end.

Definition raise {S A} (e : exn) : M S A := λ s, (Raise e, s).
Definition get {S} : M S S := λ s, (Ok s, s).
Definition modify {S} (f : S → S) : M S unit := λ s, (Ok tt, f s).

(** Lifts the outcome of a state-free call. *)
Definition lift {S A} (r : result A) : M S A := λ s, (r, s).

Notation "x <- c ;; k" := (M_bind c (λ x, k))
  (at level 100, c at next level, right associativity).
Notation "c ;;; k" := (M_bind c (λ _, k))
  (at level 100, right associativity).

(** [mapM] in the exception monad alone: a Python list comprehension
    whose element expression may raise stops at the first exception. *)
Fixpoint result_mapM {A B} (f : A → result B) (l : list A) : result (list B) :=
  match l with
  | [] => Ok []
  | x :: l' =>
      match f x with
      | Raise e => Raise e
      | Ok y =>
          match result_mapM f l' with
          | Raise e => Raise e
          | Ok ys => Ok (y :: ys)
          end
      end
  end.

(** The line feed character, Python's "\n". *)
Definition nl : string := String.String (ascii_of_nat 10) String.EmptyString.

(** ** Documents *)

(** [langchain_core.documents.Document]: the notebook reads
    [page_content] and [metadata]; [id] is the optional identifier. *)
Record Document := mkDocument {
  doc_id : option string;
  page_content : string;
  metadata : gmap string string
}.

(** ** Configuration cells *)

Definition LLM_MODEL : string := "gpt-4o-mini".
Definition LLM_TEMPERATURE : Z := 0.
Definition EMBEDDING_MODEL : string := "text-embedding-3-small".
Definition RETRIEVAL_K : Z := 3.

(** ** Document loader *)

Section Loader.
(** The content of a file; [open(path, "rb")], which returns the open
    file or raises the error of the operating system
    ([FileNotFoundError], [IsADirectoryError], [PermissionError], ...);
    and [pickle.load] on the file. *)
Context {file : Type}.
Variable open_rb : string → result file.
Variable pickle_load : file → result (list Document).

(** [load_documents]: [with open(pickle_filepath, "rb") as file: return
    pickle.load(file)].  What [open] raises and what [pickle.load] raises
    reach the caller as they are; nothing is checked. *)
Definition load_documents (pickle_filepath : string) : result (list Document) :=
  match open_rb pickle_filepath with
  | Raise e => Raise e
  | Ok f => pickle_load f
  end.

End Loader.

(** The metadata key that the notebook reads from every document. *)
Definition Headline : string := "Headline".

(** No two documents carry the same identifier. *)
Definition unique_ids (documents : list Document) : Prop :=
  NoDup (doc_id <$> documents).

(** Every document carries the metadata key the notebook reads. *)
Definition has_required_metadata (documents : list Document) : Prop :=
  Forall (λ d, is_Some (metadata d !! Headline)) documents.

(** ** Vector store *)

(** Modelled from the spec: the two failures of the specification's
    [query]; the notebook defines no exception class. *)
Definition EmptyIndexError : exn := Exn "EmptyIndexError" String.EmptyString.
Definition InvalidKError : exn := Exn "InvalidKError" String.EmptyString.

(** The specification's RetrievalResult: records with their similarity. *)
Abbreviation RetrievalResult := (list (Document * Z)).

(** The default Chroma collection, shared by every [Chroma] handle of the
    process: the stored documents with their vectors, in insertion
    order. *)
Abbreviation collection vector := (list (Document * vector)).

(** Places [x] behind the results that score strictly higher and in front
    of the first one that does not. *)
Fixpoint insert_by_similarity (x : Document * Z) (l : RetrievalResult)
  : RetrievalResult :=
  match l with
  | [] => [x]
  | y :: l' =>
      if (x.2 <? y.2)%Z then y :: insert_by_similarity x l' else x :: y :: l'
  end.

(** Stable sort by descending similarity. *)
Fixpoint sort_by_similarity (l : RetrievalResult) : RetrievalResult :=
  match l with
  | [] => []
  | x :: l' => insert_by_similarity x (sort_by_similarity l')
  end.

(** Non-increasing similarity: [a] may stand in front of [b]. *)
Definition descending (a b : Document * Z) : Prop := (b.2 ≤ a.2)%Z.

(** The results of [l] whose similarity is [s], in the order of [l]. *)
Definition with_similarity (s : Z) (l : RetrievalResult) : RetrievalResult :=
  filter (λ r, r.2 = s) l.

(** Modelled from the spec: the failure that the specification asks of a
    second build; the notebook defines no exception class. *)
Definition AlreadyBuiltError : exn := Exn "AlreadyBuiltError" String.EmptyString.

Section VectorStore.
(** Embedding vectors; [OpenAIEmbeddings(model=...)] as a function from
    the model name and a text to its vector; the similarity metric of the
    index, with scores in a totally ordered domain. *)
Context {vector : Type}.
Variable OpenAIEmbeddings : string → string → vector.
Variable similarity : vector → vector → Z.

(** Modelled from the spec: [Chroma().reset_collection()] is a call into
    the Chroma library, whose code is not part of the notebook.  The
    specification's reset "clears all vectors and ids". *)
Definition Chroma_reset_collection : M (collection vector) unit :=
  modify (λ _, []).

(** Modelled from the spec: [Chroma.from_documents] is a call into the
    Chroma library.  Build "computes one EmbeddingVector per record"; the
    collection is the "global, mutable vector-store singleton" of the
    design notes, so the new vectors are added to what it holds.  This
    is the build that succeeds: the embedding function is total here, and
    the failures of a build are left to [Chroma] below, where the build
    is whatever the library does. *)
Definition Chroma_from_documents (documents : list Document)
    (embedding : string → vector) : M (collection vector) unit :=
  modify (λ c, c ++ map (λ d, (d, embedding (page_content d))) documents).

(** [initialize_vector_store]; the returned handle designates the default
    collection, so the call returns no further data. *)
Definition initialize_vector_store (document_chunks : list Document)
  : M (collection vector) unit :=
  Chroma_reset_collection ;;;
  let embedding_model := OpenAIEmbeddings EMBEDDING_MODEL in
  Chroma_from_documents document_chunks embedding_model.

(** The collection that holds exactly one vector per chunk. *)
Definition embedded (document_chunks : list Document) : collection vector :=
  map (λ d, (d, OpenAIEmbeddings EMBEDDING_MODEL (page_content d))) document_chunks.

(** The stored records with their similarity to [v], in insertion order. *)
Definition scored (v : vector) (c : collection vector) : RetrievalResult :=
  map (λ e, (e.1, similarity v e.2)) c.

(** Modelled from the spec: the nearest-neighbour search behind
    [vector_store.as_retriever] is Chroma's, not the notebook's.  [query]
    "fails with EmptyIndexError if no vectors are loaded; fails with
    InvalidKError if k <= 0; otherwise returns up to k nearest records",
    "sorted by descending similarity, ties broken by original insertion
    order (stable sort)". *)
Definition query (v : vector) (k : Z) : M (collection vector) RetrievalResult :=
  c <- get ;;
  match c with
  | [] => raise EmptyIndexError
  | _ :: _ =>
      if (k <=? 0)%Z then raise InvalidKError
      else M_ret (take (Z.to_nat k) (sort_by_similarity (scored v c)))
  end.

(** Modelled from the spec: the Retriever "wraps VectorIndex.query with a
    fixed k and a fixed embedding function for converting a text query
    into an EmbeddingVector". *)
Definition retrieve (k : Z) (query_text : string) : M (collection vector) RetrievalResult :=
  query (OpenAIEmbeddings EMBEDDING_MODEL query_text) k.

(** [retriever = vector_store.as_retriever(search_kwargs={"k": RETRIEVAL_K})];
    invoking it returns the documents, without their scores. *)
Definition retriever (retrieval_query : string) : M (collection vector) (list Document) :=
  rs <- retrieve RETRIEVAL_K retrieval_query ;; M_ret (rs.*1).

End VectorStore.

(** Modelled from the spec: an index is built once vectors are loaded
    into it ("created empty → bulk-loaded once from a Document Store
    snapshot → queried many times"); on an index without vectors [query]
    "fails with EmptyIndexError". *)
Definition index_built {vector : Type} (c : collection vector) : Prop := c ≠ [].

(** ** The vector store, whatever the library does *)

(** The two calls that the notebook makes into the Chroma library, whose
    code is not part of the notebook: [Chroma().reset_collection()] and
    [Chroma.from_documents(documents=..., embedding=...)], each of which
    may change the shared collection and may raise. *)
Record Chroma (vector : Type) := mkChroma {
  reset_collection : M (collection vector) unit;
  from_documents : list Document → (string → vector) → M (collection vector) unit
}.
Arguments mkChroma {vector} _ _.
Arguments reset_collection {vector} _.
Arguments from_documents {vector} _ _ _.

(** What the notebook relies on when it resets: the call returns and the
    collection is empty afterwards. *)
Definition resets {vector : Type} (chroma : Chroma vector) : Prop :=
  ∀ c, reset_collection chroma c = (Ok tt, []).

Section VectorStoreWith.
Context {vector : Type}.
Variable chroma : Chroma vector.
Variable OpenAIEmbeddings : string → string → vector.

(** [initialize_vector_store], line by line, over the library [chroma]:
    the reset, the embedding model, the build. *)
Definition initialize_vector_store_with (document_chunks : list Document)
  : M (collection vector) unit :=
  reset_collection chroma ;;;
  let embedding_model := OpenAIEmbeddings EMBEDDING_MODEL in
  from_documents chroma document_chunks embedding_model.

(** The collection after calls of [initialize_vector_store] one after the
    other, each in a cell of its own: a call that raises leaves the
    collection as it was when the exception was raised. *)
Definition collection_after (calls : list (list Document))
    (c : collection vector) : collection vector :=
  foldl (λ c document_chunks, (initialize_vector_store_with document_chunks c).2)
        c calls.

End VectorStoreWith.

(** The library as the specification describes a reset and a build that
    succeeds. *)
Definition spec_chroma {vector : Type} : Chroma vector :=
  mkChroma Chroma_reset_collection Chroma_from_documents.

(** *** The library as it is installed *)

(** The properties of [initialize_vector_store_with] hold for every
    library.  For the examples the library is fixed to what the Chroma
    package that the notebook imports does, as far as the examples need
    it; its code is outside the notebook.  An empty list of documents is
    refused, a record is stored under the identifier of its document, and
    a record of a stored identifier is updated, not added. *)

Definition DuplicateIDError (ids : string) : exn := Exn "DuplicateIDError" ids.

(** The identifier under which [from_documents] stores a document:
    [doc.id if doc.id else str(uuid.uuid4())], that is its own identifier
    when it has a non-empty one and a fresh one, which no other record
    carries, otherwise ([None] here). *)
Definition stored_id (d : Document) : option string :=
  match doc_id d with
  | Some (String.String a i) => Some (String.String a i)
  | Some String.EmptyString | None => None
  end.

Section Installed.
Context {vector : Type}.

Definition has_id (i : string) (e : Document * vector) : bool :=
  bool_decide (stored_id e.1 = Some i).

(** The update of a stored record by a record of the same identifier:
    text and vector are replaced, the metadata of the new record are laid
    over the stored ones. *)
Definition update_record (stored new : Document * vector) : Document * vector :=
  (mkDocument (doc_id new.1) (page_content new.1)
     (metadata new.1 ∪ metadata stored.1),
   new.2).

(** The upsert of one record: a record of the same identifier is updated,
    any other record is added. *)
Definition upsert_record (c : collection vector) (e : Document * vector)
  : collection vector :=
  match stored_id e.1 with
  | Some i =>
      if existsb (has_id i) c
      then map (λ e', if has_id i e' then update_record e' e else e') c
      else c ++ [e]
  | None => c ++ [e]
  end.

(** [collection.upsert] on a batch of records: an empty batch and a batch
    in which two records carry the same identifier are refused. *)
Definition collection_upsert (batch : collection vector)
  : M (collection vector) unit :=
  match batch with
  | [] => raise (ValueError "Expected IDs to be a non-empty list, got 0 IDs")
  | _ :: _ =>
      if bool_decide (NoDup (omap (λ e, stored_id e.1) batch))
      then modify (λ c, foldl upsert_record c batch)
      else raise (DuplicateIDError "Expected IDs to be unique")
  end.

Definition upsert_if_any (batch : collection vector) : M (collection vector) unit :=
  match batch with
  | [] => M_ret tt
  | _ :: _ => collection_upsert batch
  end.

(** [Chroma.from_documents] as the installed library runs it: every
    document is embedded, the documents with metadata are upserted in one
    batch and the documents without metadata in a second one; an empty
    list of documents is upserted as an empty batch. *)
Definition installed_from_documents (documents : list Document)
    (embedding : string → vector) : M (collection vector) unit :=
  let records := map (λ d, (d, embedding (page_content d))) documents in
  match records with
  | [] => collection_upsert []
  | _ :: _ =>
      upsert_if_any (filter (λ e, metadata e.1 ≠ ∅) records) ;;;
      upsert_if_any (filter (λ e, metadata e.1 = ∅) records)
  end.

Definition installed_chroma : Chroma vector :=
  mkChroma Chroma_reset_collection installed_from_documents.

End Installed.

(** ** Messages and tools *)

(** An entry of [rag_response.tool_calls]: the keys ["name"], ["args"]
    and ["id"] of the dictionary. *)
Record tool_call := mkToolCall {
  tc_name : string;
  tc_args : gmap string string;
  tc_id : string
}.

(** What a chat model returns. *)
Record ai_response := mkResponse {
  content : string;
  tool_calls : list tool_call
}.

Inductive message : Type :=
| SystemMessage (text : string)
| HumanMessage (text : string)
| AIMessage (response : ai_response)
| ToolMessage (text : string) (tool_call_id : string).

Inductive role : Type := role_system | role_user | role_assistant | role_tool.

Definition role_of (m : message) : role :=
  match m with
  | SystemMessage _ => role_system
  | HumanMessage _ => role_user
  | AIMessage _ => role_assistant
  | ToolMessage _ _ => role_tool
  end.

#[global] Instance role_eq_dec : EqDecision role.
Proof. solve_decision. Defined.

(** The [tool]-role messages of a conversation, in order. *)
Definition tool_messages (msgs : list message) : list message :=
  filter (λ m, role_of m = role_tool) msgs.

(** A LangChain tool: its name and what invoking it on the arguments of a
    tool call returns or raises. *)
Record Tool := mkTool {
  tool_name : string;
  tool_invoke : gmap string string → result (list Document)
}.

(** [tools_by_name = {tool.name: tool for tool in tools}]: a later tool
    replaces an earlier one of the same name. *)
Definition tools_by_name (tools : list Tool) : gmap string Tool :=
  foldl (λ m t, <[tool_name t := t]> m) ∅ tools.

(** Modelled from the spec: the two failures of the specification's
    [dispatch]; the notebook defines no exception class. *)
Definition UnknownToolError (name : string) : exn := Exn "UnknownToolError" name.
Definition ArgumentValidationError (name : string) : exn :=
  Exn "ArgumentValidationError" name.

(** Modelled from the spec: the body of the notebook's [retrieval] tool is
    a placeholder ([return ...]) under the comment "Return documents from
    the retriever".  The tool takes the string argument [retrieval_query];
    dispatch "fails with ArgumentValidationError if arguments don't
    satisfy the declared schema (e.g., missing required retrieval_query
    string)".  The tool reads the collection [c] and leaves it as it is. *)
Definition retrieval {vector : Type} (OpenAIEmbeddings : string → string → vector)
    (similarity : vector → vector → Z) (c : collection vector) : Tool :=
  {| tool_name := "retrieval";
     tool_invoke := λ args,
       match args !! "retrieval_query" with
       | None => Raise (ArgumentValidationError "retrieval_query")
       | Some retrieval_query =>
           (retriever OpenAIEmbeddings similarity retrieval_query c).1
       end |}.

(** [f"{doc.metadata['Headline']}\n\n{doc.page_content}\n"]: the
    subscript raises [KeyError] when the key is absent. *)
Definition format_document (doc : Document) : result string :=
  match metadata doc !! Headline with
  | None => Raise (KeyError Headline)
  | Some headline => Ok (headline +:+ nl +:+ nl +:+ page_content doc +:+ nl)
  end.

(** [documents_str = "\n\n".join([... for doc in documents])]. *)
Definition documents_str (documents : list Document) : result string :=
  match result_mapM format_document documents with
  | Raise e => Raise e
  | Ok parts => Ok (String.concat (nl +:+ nl) parts)
  end.

(** ** One conversational turn *)

Definition BASE_PROMPT : string := "
You are a Financial Analyst. Do your best to help the client with their request based on your expertise. Give a succinct and clear response.
".

Definition RAG_PROMPT : string := "
You are a Financial Analyst with access to a Bloomberg Financial News database.

Query the database to help the client with their request. Give a succinct and clear response based on the information you find.
".

Definition request : string :=
  "I want to invest in the technology sector. Can you please define an investment strategy?".

(** Modelled from the spec: the states of the specification's turn
    controller.  The notebook has no state variable; the label records
    how far the cells have run. *)
Inductive turn_state : Type :=
| INIT | MODEL_CALLED | TOOL_REQUESTED | TOOL_EXECUTED | MODEL_RECALLED
| DIRECT_ANSWERED | DONE.

(** What the turn did, for counting calls: a model invocation (with or
    without the tools bound), a lookup in [tools_by_name], a tool
    invocation. *)
Inductive event : Type :=
| InvokeModel (tools_bound : bool)
| LookupTool (name : string)
| InvokeTool (tc : tool_call).


Definition is_plain_model_call (e : event) : bool :=
  match e with InvokeModel false => true | _ => false end.

Definition is_tool_invocation (e : event) : bool :=
  match e with InvokeTool _ => true | _ => false end.

(** The notebook variables [messages], [tool_call] and [documents_str]
    ([None] while a variable is not bound), with the label and the log
    that the model adds to observe the turn.  The variables keep their
    values from one run of the cells to the next. *)
Record turn := mkTurn {
  phase : turn_state;
  messages : list message;
  trace : list event;
  var_tool_call : option tool_call;
  var_documents_str : option string
}.

Definition set_phase (p : turn_state) : M turn unit :=
  modify (λ t, mkTurn p (messages t) (trace t) (var_tool_call t) (var_documents_str t)).
Definition set_messages (msgs : list message) : M turn unit :=
  modify (λ t, mkTurn (phase t) msgs (trace t) (var_tool_call t) (var_documents_str t)).
Definition emit (e : event) : M turn unit :=
  modify (λ t, mkTurn (phase t) (messages t) (trace t ++ [e])
                 (var_tool_call t) (var_documents_str t)).
Definition bind_tool_call (tc : tool_call) : M turn unit :=
  modify (λ t, mkTurn (phase t) (messages t) (trace t) (Some tc) (var_documents_str t)).
Definition bind_documents_str (text : string) : M turn unit :=
  modify (λ t, mkTurn (phase t) (messages t) (trace t) (var_tool_call t) (Some text)).

(** The turn before its first cell has run, in a fresh kernel. *)
Definition initial_turn : turn := mkTurn INIT [] [] None None.

(** [tools_by_name[name]]: the subscript raises [KeyError] when the name
    is not a key. *)
Definition lookup_tool (registry : gmap string Tool) (name : string) : result Tool :=
  match registry !! name with
  | None => Raise (KeyError name)
  | Some t => Ok t
  end.

(** The conversation sent to the tool-aware model. *)
Definition request_messages (request : string) : list message :=
  [SystemMessage RAG_PROMPT; HumanMessage request].

(** The conversation sent to the plain model once the tool has answered. *)
Definition grounded_messages (request : string) (rag_response : ai_response)
    (documents_str : string) (tool_call : tool_call) : list message :=
  [SystemMessage RAG_PROMPT; HumanMessage request; AIMessage rag_response;
   ToolMessage documents_str (tc_id tool_call)].

(** Modelled from the spec: the failure that the specification asks of
    [load]; the notebook defines no exception class. *)
Definition LoadError (source : string) : exn := Exn "LoadError" source.

Section Turn.
(** The chat model with the tools bound and the chat model without. *)
Variable rag_model : list message → ai_response.
Variable base_model : list message → ai_response.
Variable tools : list Tool.

(** Modelled from the spec: the two assignments of this cell are
    placeholders in the notebook ([messages = ...], [rag_response = ...]
    under the comments "Message list for the RAG model" and "Invoke the
    RAG model with the messages").  Section 4.5: INIT "assemble system +
    user messages", MODEL_CALLED "invoke the tool-aware model variant
    with the current ConversationState".  The invocation is taken to
    return. *)
Definition cell_rag_response (request : string) : M turn ai_response :=
  let messages := request_messages request in
  set_messages messages ;;;
  emit (InvokeModel true) ;;;
  let rag_response := rag_model messages in
  set_phase MODEL_CALLED ;;;
  M_ret rag_response.

(** The cell [if rag_response.tool_calls: ...], as it is written: it
    binds [tool_call], looks the tool up, invokes it and binds
    [documents_str]; it does nothing when the response carries no tool
    call. *)
Definition cell_tool_call (rag_response : ai_response) : M turn unit :=
  match tool_calls rag_response with
  | [] => set_phase DIRECT_ANSWERED
  | tool_call :: _ =>
      set_phase TOOL_REQUESTED ;;;
      bind_tool_call tool_call ;;;
      emit (LookupTool (tc_name tool_call)) ;;;
      tool <- lift (lookup_tool (tools_by_name tools) (tc_name tool_call)) ;;
      emit (InvokeTool tool_call) ;;;
      documents <- lift (tool_invoke tool (tc_args tool_call)) ;;
      text <- lift (documents_str documents) ;;
      bind_documents_str text
  end.

(** Modelled from the spec: of this cell the notebook has the list of
    four entries and [ToolMessage(..., tool_call_id=tool_call["id"])];
    the first three entries, the content of the tool message and the
    invocation are placeholders under the comments "RAG System prompt",
    "Client request", "RAG model response", "Retrieval tool response"
    and "Invoke the base model with the messages".  Section 4.5,
    MODEL_RECALLED: "invoke the plain (non-tool) model variant with the
    full ConversationState (system + user + the assistant's tool-call
    message + the tool result)".  Python evaluates the content of the
    tool message, [documents_str], before [tool_call["id"]]; each raises
    [NameError] when the variable is not bound.  The invocation is taken
    to return. *)
Definition cell_response (request : string) (rag_response : ai_response)
  : M turn string :=
  t <- get ;;
  match var_documents_str t with
  | None => raise (NameError "documents_str")
  | Some documents_str =>
      match var_tool_call t with
      | None => raise (NameError "tool_call")
      | Some tool_call =>
          let messages :=
            grounded_messages request rag_response documents_str tool_call in
          set_messages messages ;;;
          set_phase TOOL_EXECUTED ;;;
          emit (InvokeModel false) ;;;
          let response := base_model messages in
          set_phase MODEL_RECALLED ;;;
          set_phase DONE ;;;
          M_ret (content response)
      end
  end.

(** The three cells in the order of the notebook. *)
Definition run_turn (request : string) : M turn string :=
  rag_response <- cell_rag_response request ;;
  (cell_tool_call rag_response ;;;
   cell_response request rag_response).

End Turn.

(** ** Sample data *)

(** A three-document corpus; every document carries a headline. *)
Definition doc_inflation : Document :=
  mkDocument (Some "1") "Inflation eases as energy prices fall"
    {[ Headline := "Inflation" ]}.
Definition doc_equities : Document :=
  mkDocument (Some "2") "Equities rally"
    {[ Headline := "Equities" ]}.
Definition doc_bonds : Document :=
  mkDocument (Some "3") "Bond yields"
    {[ Headline := "Bonds" ]}.
Definition sample_corpus : list Document := [doc_inflation; doc_equities; doc_bonds].

(** A document with the identifier of [doc_inflation] and no headline. *)
Definition doc_untitled : Document := mkDocument (Some "1") "Untitled note" ∅.

(** A one-dimensional embedding, the length of the text, and a similarity
    that is higher the closer two lengths are. *)
Definition length_embedding (model text : string) : Z :=
  Z.of_nat (String.length text).
Definition closeness (a b : Z) : Z := (- Z.abs (a - b))%Z.

(** What [open] returns on a file system with one pickle file in the
    directory [../data]; a file holds the documents that unpickling it
    yields. *)
Definition sample_open (path : string) : result (list Document) :=
  if bool_decide (path = "../data/bloomberg_financial_news_1k.pkl")
  then Ok [doc_inflation; doc_untitled]
  else if bool_decide (path = "../data") then Raise (IsADirectoryError path)
  else Raise (FileNotFoundError path).

(** A tool-aware model that answers with empty content and the given tool
    calls, and a plain model that answers with the text of the last tool
    message. *)
Definition calling_model (calls : list tool_call) (msgs : list message)
  : ai_response := mkResponse String.EmptyString calls.
Definition quoting_model (msgs : list message) : ai_response :=
  mkResponse
    (match last msgs with Some (ToolMessage text _) => text | _ => "no evidence" end)
    [].

Definition call_abc123 : tool_call :=
  mkToolCall "retrieval" {[ "retrieval_query" := "bond market" ]} "abc123".
Definition call_second : tool_call :=
  mkToolCall "retrieval" {[ "retrieval_query" := "equities" ]} "def456".
Definition call_unknown : tool_call :=
  mkToolCall "web_search" {[ "retrieval_query" := "bond market" ]} "ghi789".

(** The tools of the notebook over the sample corpus, and a tool table
    whose only tool returns a document without headline. *)
Definition sample_tools : list Tool :=
  [retrieval length_embedding closeness (embedded length_embedding sample_corpus)].
Definition untitled_tools : list Tool :=
  [mkTool "retrieval" (λ _, Ok [doc_bonds; doc_untitled])].

(** ** Further cells of the notebook *)

(** The cell that previews the first document:
    [f"{documents[0].metadata['Headline']}\n\n{documents[0].page_content}"].
    [documents[0]] raises [IndexError] on the empty list, the subscript
    of the metadata raises [KeyError] when the key is absent. *)
Definition doc_str (documents : list Document) : result string :=
  match documents with
  | [] => Raise (IndexError "list index out of range")
  | doc :: _ =>
      match metadata doc !! Headline with
      | None => Raise (KeyError Headline)
      | Some headline => Ok (headline +:+ nl +:+ nl +:+ page_content doc)
      end
  end.

(** Further sample data: a tool that raises and a tool that finds one
    document. *)

Definition failing_tool : Tool :=
  mkTool "retrieval" (λ _, Raise (Exn "TimeoutError" "embedding service")).
Definition bonds_tool : Tool := mkTool "retrieval" (λ _, Ok [doc_bonds]).

(** * Properties *)

(** ** The monad *)

Lemma M_bind_Ok {S A B} (c : M S A) (k : A → M S B) s a s' :
  c s = (Ok a, s') → M_bind c k s = k a s'.
Proof. intros H. unfold M_bind. by rewrite H. Qed.

Lemma M_bind_Raise {S A B} (c : M S A) (k : A → M S B) s e s' :
  c s = (Raise e, s') → M_bind c k s = (Raise e, s').
Proof. intros H. unfold M_bind. by rewrite H. Qed.

(** ** Ranking *)

Lemma insert_by_similarity_perm x l : insert_by_similarity x l ≡ₚ x :: l.
Proof.
  induction l as [|y l IH]; simpl; [done|].
  destruct (x.2 <? y.2)%Z; [|done].
  rewrite IH. apply Permutation_swap.
Qed.

Lemma sort_by_similarity_perm l : sort_by_similarity l ≡ₚ l.
Proof.
  induction l as [|x l IH]; simpl; [done|].
  by rewrite insert_by_similarity_perm, IH.
Qed.

Lemma insert_by_similarity_sorted x l :
  StronglySorted descending l → StronglySorted descending (insert_by_similarity x l).
Proof.
  induction l as [|y l IH]; simpl; intros Hs.
  - repeat constructor.
  - apply StronglySorted_cons in Hs as [Hy Hl].
    destruct (Z.ltb_spec (x.2) (y.2)) as [Hlt|Hge].
    + apply StronglySorted_cons. split; [|by apply IH].
      rewrite insert_by_similarity_perm. constructor; [|done].
      unfold descending. lia.
    + apply StronglySorted_cons. split.
      * constructor; [done|].
        eapply Forall_impl; [exact Hy|]. unfold descending. intros z Hz. simpl in Hz. lia.
      * by apply StronglySorted_cons.
Qed.

Lemma sort_by_similarity_sorted l : StronglySorted descending (sort_by_similarity l).
Proof.
  induction l as [|x l IH]; simpl; [constructor|].
  by apply insert_by_similarity_sorted.
Qed.

Lemma StronglySorted_take {A} (R : relation A) n (l : list A) :
  StronglySorted R l → StronglySorted R (take n l).
Proof.
  intros Hs. rewrite <- (take_drop n l) in Hs.
  by apply StronglySorted_app_1_l in Hs.
Qed.

(** Insertion keeps the order of the results of any one similarity: the
    new result comes first among its equals. *)
Lemma with_similarity_insert s x l :
  with_similarity s (insert_by_similarity x l) = with_similarity s (x :: l).
Proof.
  unfold with_similarity.
  induction l as [|y l IH]; [done|].
  cbn [insert_by_similarity].
  destruct (Z.ltb_spec (x.2) (y.2)) as [Hlt|Hge]; [|done].
  rewrite (filter_cons _ x) in IH.
  rewrite (filter_cons _ y), (filter_cons _ x), (filter_cons _ y).
  destruct (decide (y.2 = s)) as [Hy|Hy], (decide (x.2 = s)) as [Hx|Hx];
    first [lia | exact IH | f_equal; exact IH].
Qed.

Lemma with_similarity_sort s l :
  with_similarity s (sort_by_similarity l) = with_similarity s l.
Proof.
  induction l as [|x l IH]; [done|].
  cbn [sort_by_similarity].
  rewrite with_similarity_insert. unfold with_similarity in *.
  rewrite !(filter_cons _ x).
  destruct (decide (x.2 = s)); [f_equal|]; exact IH.
Qed.

Lemma with_similarity_take s n l :
  with_similarity s (take n l) `prefix_of` with_similarity s l.
Proof.
  exists (with_similarity s (drop n l)). unfold with_similarity.
  by rewrite <- filter_app, take_drop.
Qed.

(** ** Vector store *)

Section VectorStoreProperties.
Context {vector : Type}.
Variable OpenAIEmbeddings : string → string → vector.
Variable similarity : vector → vector → Z.

Lemma initialize_vector_store_run (document_chunks : list Document)
    (c : collection vector) :
  initialize_vector_store OpenAIEmbeddings document_chunks c
  = (Ok tt, embedded OpenAIEmbeddings document_chunks).
Proof. reflexivity. Qed.

Lemma embedded_documents (document_chunks : list Document) :
  (embedded OpenAIEmbeddings document_chunks).*1 = document_chunks.
Proof.
  unfold embedded. induction document_chunks as [|d l IH]; [done|].
  cbn. by rewrite IH.
Qed.

Lemma scored_documents v (c : collection vector) :
  (scored similarity v c).*1 = c.*1.
Proof.
  unfold scored. induction c as [|e c IH]; [done|]. cbn. by rewrite IH.
Qed.

Lemma query_run v k (e : Document * vector) (c : collection vector) :
  (0 < k)%Z →
  query similarity v k (e :: c)
  = (Ok (take (Z.to_nat k) (sort_by_similarity (scored similarity v (e :: c)))), e :: c).
Proof.
  intros Hk. unfold query, M_bind, get.
  destruct (Z.leb_spec k 0); [lia|done].
Qed.

Lemma query_reads_only v k (c : collection vector) :
  (query similarity v k c).2 = c.
Proof.
  unfold query, M_bind, get. destruct c; [done|].
  by destruct (k <=? 0)%Z.
Qed.

Lemma query_returns_stored v k (c : collection vector) rs :
  (query similarity v k c).1 = Ok rs → rs ⊆+ scored similarity v c.
Proof.
  unfold query, M_bind, get. destruct c as [|e c]; [done|].
  destruct (k <=? 0)%Z; [done|]. intros [= <-].
  etrans; [apply sublist_submseteq, sublist_take|].
  apply Permutation_submseteq.
  exact (sort_by_similarity_perm (scored similarity v (e :: c))).
Qed.

Lemma sorted_prefix_beats_rest (l : RetrievalResult) n r r' :
  StronglySorted descending l → r ∈ take n l → r' ∈ drop n l → (r'.2 ≤ r.2)%Z.
Proof.
  intros Hs Hr Hr'. rewrite <- (take_drop n l) in Hs.
  exact (StronglySorted_app_1_elem_of _ _ _ _ _ Hs Hr Hr').
Qed.

(** C1.  On every built index, that is every index into which vectors
    are loaded, and for every query vector and positive k, [query]
    raises no error and returns exactly min(k, index size) results,
    sorted by non-increasing similarity, and leaves the index as it is.
    The results are stored records and the nearest ones: together with
    the records left out they are all the stored records, and no record
    left out is more similar than a result.  When k is at least the
    number of stored vectors nothing is left out, so all stored records
    are returned. *)
Theorem query_top_k (built : collection vector) (v : vector) (k : Z) :
  index_built built →
  (0 < k)%Z →
  ∃ rs rest : RetrievalResult,
    query similarity v k built = (Ok rs, built)
    ∧ length rs = Nat.min (Z.to_nat k) (length built)
    ∧ StronglySorted descending rs
    ∧ rs ++ rest ≡ₚ scored similarity v built
    ∧ (∀ r r', r ∈ rs → r' ∈ rest → (r'.2 ≤ r.2)%Z)
    ∧ ((length built ≤ Z.to_nat k)%nat →
       rest = [] ∧ rs ≡ₚ scored similarity v built).
Proof.
  unfold index_built. intros Hne Hk.
  destruct built as [|e c]; [done|].
  set (ranked := sort_by_similarity (scored similarity v (e :: c))).
  assert (ranked ≡ₚ scored similarity v (e :: c)) as Hperm
    by apply sort_by_similarity_perm.
  assert (StronglySorted descending ranked) as Hsorted
    by apply sort_by_similarity_sorted.
  assert (length ranked = length (e :: c)) as Hlen.
  { rewrite Hperm. unfold scored. by rewrite length_map. }
  exists (take (Z.to_nat k) ranked), (drop (Z.to_nat k) ranked).
  split; [by apply query_run|]. split; [by rewrite length_take, Hlen|].
  split; [by apply StronglySorted_take|].
  split; [by rewrite take_drop|]. split.
  - intros r r' Hr Hr'. by eapply sorted_prefix_beats_rest.
  - intros Hle. rewrite drop_ge, take_ge by lia. by split.
Qed.

(** C7.  Retrieval is deterministic: [retrieve] leaves the index as it is
    and a second call with the same query text returns the same ordered
    results as the first; among the stored records of any one similarity
    the results are an initial segment in insertion order, so ties are
    broken by insertion order. *)
Theorem retrieve_deterministic (c : collection vector) (k : Z) (query_text : string) :
  let first := retrieve OpenAIEmbeddings similarity k query_text c in
  let second := retrieve OpenAIEmbeddings similarity k query_text first.2 in
  first.2 = c
  ∧ second = first
  ∧ match first.1 with
    | Ok rs =>
        ∀ s : Z,
          with_similarity s rs `prefix_of`
          with_similarity s
            (scored similarity (OpenAIEmbeddings EMBEDDING_MODEL query_text) c)
    | Raise _ => True
    end.
Proof.
  intros first second.
  assert (first.2 = c) as Hc by apply query_reads_only.
  split; [done|]. split; [unfold second; by rewrite Hc|].
  unfold first, retrieve, query, M_bind, get.
  destruct c as [|e c']; [done|].
  destruct (k <=? 0)%Z; [done|]. cbn [fst M_ret].
  intros s. rewrite <- (with_similarity_sort s (scored _ _ _)).
  apply with_similarity_take.
Qed.

(** C6.  After a reset followed by a build from a new corpus the
    collection holds the new corpus only: a query leaves it as it is and
    every record it returns is a record of the new corpus, so no record
    that belongs to the discarded corpus alone is returned; and resetting
    twice leaves the same cleared collection as resetting once. *)
Theorem reset_then_build_forgets (old new : list Document)
    (c0 : collection vector) (v : vector) (k : Z) :
  let rebuild :=
    (initialize_vector_store OpenAIEmbeddings old ;;;
     Chroma_reset_collection ;;;
     Chroma_from_documents new (OpenAIEmbeddings EMBEDDING_MODEL)) in
  let rebuilt := (rebuild c0).2 in
  rebuilt.*1 = new
  ∧ (query similarity v k rebuilt).2 = rebuilt
  ∧ (∀ rs, (query similarity v k rebuilt).1 = Ok rs →
       (∀ d, d ∈ rs.*1 → d ∈ new)
       ∧ (∀ d, d ∈ old → d ∉ new → d ∉ rs.*1))
  ∧ (Chroma_reset_collection ;;; Chroma_reset_collection) c0
    = Chroma_reset_collection c0
  ∧ (Chroma_reset_collection c0).2 = [].
Proof.
  intros rebuild rebuilt.
  assert (rebuilt = embedded OpenAIEmbeddings new) as Hr by done.
  assert (rebuilt.*1 = new) as Hdocs by (rewrite Hr; apply embedded_documents).
  split; [done|]. split; [apply query_reads_only|]. split; [|done].
  intros rs Hq.
  assert (∀ d, d ∈ rs.*1 → d ∈ new) as Hin.
  { intros d Hd. apply query_returns_stored in Hq.
    rewrite <- Hdocs, <- (scored_documents v rebuilt).
    eapply elem_of_submseteq; [exact Hd|]. by apply fmap_submseteq. }
  split; [done|]. intros d _ Hnew Hd. by apply Hnew, Hin.
Qed.

End VectorStoreProperties.

(** ** Document loader *)

Section LoaderProperties.
Context {file : Type}.
Variable open_rb : string → result file.
Variable pickle_load : file → result (list Document).

(** C8, as amended.  [load_documents] fails with the exception that
    [open] raises when the file cannot be opened, whichever it is, and
    with the exception that [pickle.load] raises when the content cannot
    be unpickled; otherwise it returns the unpickled documents as they
    are, whatever their identifiers and metadata. *)
Theorem load_documents_outcome (pickle_filepath : string) :
  (∀ e, open_rb pickle_filepath = Raise e →
     load_documents open_rb pickle_load pickle_filepath = Raise e)
  ∧ (∀ f e, open_rb pickle_filepath = Ok f → pickle_load f = Raise e →
       load_documents open_rb pickle_load pickle_filepath = Raise e)
  ∧ (∀ f documents, open_rb pickle_filepath = Ok f → pickle_load f = Ok documents →
       load_documents open_rb pickle_load pickle_filepath = Ok documents).
Proof.
  unfold load_documents. repeat split.
  - by intros e ->.
  - by intros f e -> ->.
  - by intros f documents -> ->.
Qed.

End LoaderProperties.

(** ** The vector store, whatever the library does *)

Lemma initialize_vector_store_is_instance {vector : Type}
    (OpenAIEmbeddings : string → string → vector)
    (document_chunks : list Document) (c : collection vector) :
  initialize_vector_store OpenAIEmbeddings document_chunks c
  = initialize_vector_store_with spec_chroma OpenAIEmbeddings document_chunks c.
Proof. reflexivity. Qed.

Lemma upsert_record_nonempty {vector : Type} (c : collection vector)
    (e : Document * vector) :
  upsert_record c e ≠ [].
Proof.
  unfold upsert_record. destruct (stored_id e.1) as [i|]; [|by destruct c].
  destruct c as [|e' c]; [done|].
  by destruct (existsb (has_id i) (e' :: c)).
Qed.

Lemma foldl_upsert_record_nonempty {vector : Type} (batch c : collection vector) :
  batch ≠ [] ∨ c ≠ [] → foldl upsert_record c batch ≠ [].
Proof.
  revert c. induction batch as [|e batch IH]; intros c Hne; cbn [foldl].
  - by destruct Hne.
  - apply IH. right. apply upsert_record_nonempty.
Qed.

Lemma upsert_if_any_Ok {vector : Type} (batch c built : collection vector) :
  upsert_if_any batch c = (Ok tt, built) →
  (batch = [] ∧ built = c) ∨ (batch ≠ [] ∧ built ≠ []).
Proof.
  unfold upsert_if_any, collection_upsert, M_ret, modify, raise.
  destruct batch as [|e batch]; [intros [= <-]; by left|].
  destruct (bool_decide (NoDup (omap (λ e0, stored_id e0.1) (e :: batch))));
    [|intros H; discriminate H].
  intros [= <-]. right. split; [discriminate|].
  apply (foldl_upsert_record_nonempty (e :: batch) c). left. discriminate.
Qed.

(** An index that [initialize_vector_store] has built with the installed
    library holds at least one vector: the build of an empty list is
    refused. *)
Lemma installed_build_loads {vector : Type}
    (OpenAIEmbeddings : string → string → vector)
    (document_chunks : list Document) (c built : collection vector) :
  initialize_vector_store_with installed_chroma OpenAIEmbeddings document_chunks c
  = (Ok tt, built) →
  index_built built.
Proof.
  unfold initialize_vector_store_with, index_built. cbn [reset_collection
    from_documents installed_chroma].
  unfold M_bind at 1. cbn [Chroma_reset_collection modify].
  unfold installed_from_documents.
  destruct document_chunks as [|d ds]; [done|]. cbn [map].
  set (records := (d, OpenAIEmbeddings EMBEDDING_MODEL (page_content d))
                  :: map (λ d0, (d0, OpenAIEmbeddings EMBEDDING_MODEL (page_content d0))) ds).
  unfold M_bind.
  destruct (upsert_if_any (filter (λ e, metadata e.1 ≠ ∅) records) [])
    as [[[]|e1] c1] eqn:H1; [|done].
  intros H2.
  apply upsert_if_any_Ok in H1 as [[Hnone ->]|[_ Hc1]];
    apply upsert_if_any_Ok in H2 as [[Hnone' ->]|[_ Hbuilt]]; try done.
  assert ((d, OpenAIEmbeddings EMBEDDING_MODEL (page_content d)) ∈ records)
    as Hin by apply list_elem_of_here.
  destruct (decide (metadata d = ∅)) as [Hd|Hd].
  - assert ((d, OpenAIEmbeddings EMBEDDING_MODEL (page_content d))
            ∈ filter (λ e, metadata e.1 = ∅) records) as Hf
      by by apply list_elem_of_filter.
    rewrite Hnone' in Hf. by apply not_elem_of_nil in Hf.
  - assert ((d, OpenAIEmbeddings EMBEDDING_MODEL (page_content d))
            ∈ filter (λ e, metadata e.1 ≠ ∅) records) as Hf
      by by apply list_elem_of_filter.
    rewrite Hnone in Hf. by apply not_elem_of_nil in Hf.
Qed.

Section VectorStoreWithProperties.
Context {vector : Type}.
Variable chroma : Chroma vector.
Variable OpenAIEmbeddings : string → string → vector.
Hypothesis chroma_resets : resets chroma.

Lemma initialize_vector_store_with_run (document_chunks : list Document)
    (c : collection vector) :
  initialize_vector_store_with chroma OpenAIEmbeddings document_chunks c
  = from_documents chroma document_chunks (OpenAIEmbeddings EMBEDDING_MODEL) [].
Proof.
  unfold initialize_vector_store_with.
  by rewrite (M_bind_Ok _ _ c tt [] (chroma_resets c)).
Qed.

(** C4, as amended.  The notebook never builds on a built collection
    without resetting it: [initialize_vector_store] resets the collection
    before it builds, so a call on a collection that an earlier call has
    built has exactly the outcome, result and collection, of the build of
    its chunks on an empty collection, the same as a call on the empty
    collection.  No vector of the earlier build is kept, and the call
    raises only what that build raises. *)
Theorem initialize_on_built_collection (first second : list Document)
    (c0 : collection vector) :
  let built := (initialize_vector_store_with chroma OpenAIEmbeddings first c0).2 in
  let again := initialize_vector_store_with chroma OpenAIEmbeddings second built in
  again = from_documents chroma second (OpenAIEmbeddings EMBEDDING_MODEL) []
  ∧ again = initialize_vector_store_with chroma OpenAIEmbeddings second [].
Proof.
  intros built again. unfold again.
  by rewrite !initialize_vector_store_with_run.
Qed.

(** C9, as amended.  [initialize_vector_store] clears the collection
    before it builds, so calls in a row never accumulate vectors: after
    any number of earlier calls, whether they returned or raised, the
    last call has exactly the outcome, result and collection, of the
    build of its chunks on an empty collection, as if only that call had
    happened.  It raises exactly when that build raises, and the
    collection afterwards is the one that build leaves. *)
Theorem initialize_vector_store_never_accumulates (earlier : list (list Document))
    (document_chunks : list Document) (c0 c1 : collection vector) :
  let before := collection_after chroma OpenAIEmbeddings earlier c0 in
  let last := initialize_vector_store_with chroma OpenAIEmbeddings document_chunks before in
  last = from_documents chroma document_chunks (OpenAIEmbeddings EMBEDDING_MODEL) []
  ∧ last = initialize_vector_store_with chroma OpenAIEmbeddings document_chunks c1
  ∧ collection_after chroma OpenAIEmbeddings (earlier ++ [document_chunks]) c0
    = (from_documents chroma document_chunks (OpenAIEmbeddings EMBEDDING_MODEL) []).2.
Proof.
  intros before last. unfold last.
  rewrite !initialize_vector_store_with_run. split; [done|]. split; [done|].
  unfold collection_after. rewrite foldl_snoc.
  by rewrite initialize_vector_store_with_run.
Qed.

End VectorStoreWithProperties.

(** ** Tool table and formatting *)

Lemma foldl_insert_lookup_None (tools : list Tool) (m : gmap string Tool) name :
  foldl (λ m t, <[tool_name t := t]> m) m tools !! name = None
  ↔ m !! name = None ∧ Forall (λ t, tool_name t ≠ name) tools.
Proof.
  revert m. induction tools as [|t tools IH]; intros m; cbn [foldl].
  - split; [intros H; by split|by intros [H _]].
  - rewrite IH, Forall_cons, lookup_insert_None. tauto.
Qed.

Lemma tools_by_name_None (tools : list Tool) name :
  tools_by_name tools !! name = None ↔ Forall (λ t, tool_name t ≠ name) tools.
Proof.
  unfold tools_by_name. rewrite foldl_insert_lookup_None, lookup_empty.
  tauto.
Qed.

Lemma result_mapM_Raise (documents : list Document) :
  Exists (λ d, metadata d !! Headline = None) documents →
  result_mapM format_document documents = Raise (KeyError Headline).
Proof.
  induction documents as [|d l IH]; intros Hex; [by inversion Hex|].
  cbn [result_mapM]. unfold format_document at 1.
  destruct (metadata d !! Headline) as [h|] eqn:Hd; [|done].
  apply Exists_cons in Hex as [Hex|Hex]; [congruence|].
  by rewrite (IH Hex).
Qed.

Lemma result_mapM_Ok (documents : list Document) :
  has_required_metadata documents →
  ∃ parts, result_mapM format_document documents = Ok parts
           ∧ length parts = length documents.
Proof.
  unfold has_required_metadata.
  induction 1 as [|d l [h Hd] _ [parts [IH Hlen]]]; [by exists []|].
  exists ((h +:+ nl +:+ nl +:+ page_content d +:+ nl) :: parts).
  cbn [result_mapM]. unfold format_document at 1.
  rewrite Hd, IH. split; [done|]. cbn. by rewrite Hlen.
Qed.

(** ** The turn *)

Section TurnProperties.
Variable rag_model : list message → ai_response.
Variable base_model : list message → ai_response.
Variable tools : list Tool.

(** What the turn does, from a fresh kernel, when the response of the
    tool-aware model carries a tool call: one case per place where an
    exception can stop it. *)
Lemma run_turn_tool_call (request : string) (tc : tool_call) (rest : list tool_call) :
  let rag_response := rag_model (request_messages request) in
  tool_calls rag_response = tc :: rest →
  run_turn rag_model base_model tools request initial_turn
  = match lookup_tool (tools_by_name tools) (tc_name tc) with
    | Raise e =>
        (Raise e,
         mkTurn TOOL_REQUESTED (request_messages request)
           [InvokeModel true; LookupTool (tc_name tc)] (Some tc) None)
    | Ok t =>
        match
          match tool_invoke t (tc_args tc) with
          | Raise e => Raise e
          | Ok documents => documents_str documents
          end
        with
        | Raise e =>
            (Raise e,
             mkTurn TOOL_REQUESTED (request_messages request)
               [InvokeModel true; LookupTool (tc_name tc); InvokeTool tc]
               (Some tc) None)
        | Ok text =>
            let messages := grounded_messages request rag_response text tc in
            (Ok (content (base_model messages)),
             mkTurn DONE messages
               [InvokeModel true; LookupTool (tc_name tc); InvokeTool tc;
                InvokeModel false]
               (Some tc) (Some text))
        end
    end.
Proof.
  intros rag_response Hcalls.
  unfold run_turn, cell_rag_response, cell_tool_call, cell_response.
  unfold M_bind, M_ret, lift, raise, get, set_phase, set_messages, emit,
    bind_tool_call, bind_documents_str, modify.
  cbn. fold rag_response. rewrite Hcalls. cbn.
  destruct (lookup_tool (tools_by_name tools) (tc_name tc)) as [t|e]; [|done].
  destruct (tool_invoke t (tc_args tc)) as [documents|e]; [|done].
  by destruct (documents_str documents) as [text|e].
Qed.


(** C3, as amended.  When the first tool call names a tool that is not
    in the list of tools, the lookup raises [KeyError] carrying that
    name; the exception ends the turn and reaches the caller; no tool and
    no plain model has been invoked, the conversation holds no tool
    message, and the state is TOOL_REQUESTED. *)
Theorem unregistered_tool_aborts (request : string) (tc : tool_call)
    (rest : list tool_call) :
  tool_calls (rag_model (request_messages request)) = tc :: rest →
  Forall (λ t, tool_name t ≠ tc_name tc) tools →
  let run := run_turn rag_model base_model tools request initial_turn in
  run.1 = Raise (KeyError (tc_name tc))
  ∧ phase run.2 = TOOL_REQUESTED
  ∧ filter (λ e, is_tool_invocation e = true) (trace run.2) = []
  ∧ filter (λ e, is_plain_model_call e = true) (trace run.2) = []
  ∧ tool_messages (messages run.2) = [].
Proof.
  intros Hcalls Hnone run. unfold run.
  rewrite (run_turn_tool_call request tc rest Hcalls).
  apply tools_by_name_None in Hnone.
  unfold lookup_tool. rewrite Hnone. cbn. repeat split; done.
Qed.

(** C5.  The tool message that answers a tool call carries the [id] of
    that call unchanged: a turn that completes holds exactly one tool
    message, whose [tool_call_id] is the [id] of the first call of the
    response; a turn that an exception stops holds no tool message. *)
Theorem tool_message_keeps_call_id (request : string) (tc : tool_call)
    (rest : list tool_call) :
  tool_calls (rag_model (request_messages request)) = tc :: rest →
  let run := run_turn rag_model base_model tools request initial_turn in
  match run.1 with
  | Ok _ => ∃ text, tool_messages (messages run.2) = [ToolMessage text (tc_id tc)]
  | Raise _ => tool_messages (messages run.2) = []
  end.
Proof.
  intros Hcalls run. unfold run.
  rewrite (run_turn_tool_call request tc rest Hcalls).
  destruct (lookup_tool (tools_by_name tools) (tc_name tc)) as [t|e]; [|done].
  destruct (match tool_invoke t (tc_args tc) with
            | Ok documents => documents_str documents
            | Raise e => Raise e
            end) as [text|e]; [|done].
  cbn. by exists text.
Qed.

(** C10.  Formatting the retrieved documents needs the key ['Headline']
    in the metadata of every one of them: when a retrieved document lacks
    it, [documents_str] raises [KeyError] for that key, the turn stops
    with that exception in state TOOL_REQUESTED, and no tool message is
    produced; when every document carries it, the formatting returns. *)
Theorem missing_headline_raises (request : string) (tc : tool_call)
    (rest : list tool_call) (t : Tool) (documents : list Document) :
  tool_calls (rag_model (request_messages request)) = tc :: rest →
  tools_by_name tools !! tc_name tc = Some t →
  tool_invoke t (tc_args tc) = Ok documents →
  let run := run_turn rag_model base_model tools request initial_turn in
  (Exists (λ d, metadata d !! Headline = None) documents →
     documents_str documents = Raise (KeyError Headline)
     ∧ run.1 = Raise (KeyError Headline)
     ∧ phase run.2 = TOOL_REQUESTED
     ∧ tool_messages (messages run.2) = [])
  ∧ (has_required_metadata documents →
     is_Ok (documents_str documents) = true ∧ is_Ok run.1 = true).
Proof.
  intros Hcalls Ht Hdocs run. unfold run.
  rewrite (run_turn_tool_call request tc rest Hcalls).
  unfold lookup_tool. rewrite Ht, Hdocs. unfold documents_str. split.
  - intros Hex. rewrite (result_mapM_Raise documents Hex). by cbn.
  - intros Hall. destruct (result_mapM_Ok documents Hall) as [parts [-> _]].
    by cbn.
Qed.

End TurnProperties.

(** * The properties on the sample data *)

Example sample_query :
  (query closeness 11%Z 1%Z (embedded length_embedding sample_corpus)).1
  = Ok [(doc_bonds, 0%Z)].
Proof. reflexivity. Qed.

Example sample_turn :
  (run_turn (calling_model [call_abc123; call_second]) quoting_model sample_tools
     request initial_turn).1
  = Ok ("Bonds" +:+ nl +:+ nl +:+ "Bond yields" +:+ nl
        +:+ nl +:+ nl
        +:+ "Equities" +:+ nl +:+ nl +:+ "Equities rally" +:+ nl
        +:+ nl +:+ nl
        +:+ "Inflation" +:+ nl +:+ nl +:+ "Inflation eases as energy prices fall" +:+ nl).
Proof. vm_compute. reflexivity. Qed.

Lemma query_top_k_witness :
  let built := embedded length_embedding sample_corpus in
  index_built built
  ∧ (0 < 2)%Z
  ∧ (query closeness 11%Z 2%Z built).1 = Ok [(doc_bonds, 0%Z); (doc_equities, (-3)%Z)]
  ∧ ∃ rs rest : RetrievalResult,
      query closeness 11%Z 2%Z built = (Ok rs, built)
      ∧ length rs = 2
      ∧ StronglySorted descending rs
      ∧ rs ++ rest ≡ₚ scored closeness 11%Z built
      ∧ (∀ r r', r ∈ rs → r' ∈ rest → (r'.2 ≤ r.2)%Z).
Proof.
  cbv zeta.
  assert (index_built (embedded length_embedding sample_corpus)) as Hbuilt
    by discriminate.
  assert (0 < 2)%Z as Hk by lia.
  split; [exact Hbuilt|]. split; [exact Hk|]. split; [reflexivity|].
  destruct (query_top_k closeness (embedded length_embedding sample_corpus)
              11%Z 2%Z Hbuilt Hk)
    as (rs & rest & Hq & Hlen & Hsorted & Hperm & Hnearest & _).
  exists rs, rest. split; [exact Hq|]. split; [exact Hlen|].
  split; [exact Hsorted|]. split; [exact Hperm|exact Hnearest].
Defined.

(** The claim of C4 as it was stated fails: a build on a collection that
    is already built, with no reset between the two builds, returns
    normally; it does not raise [AlreadyBuiltError], and the collection
    then holds the vectors of both builds. *)
Lemma build_on_built_collection_returns :
  let build (documents : list Document) :=
    from_documents installed_chroma documents (length_embedding EMBEDDING_MODEL) in
  let built := (build [doc_inflation] []).2 in
  let again := build [doc_bonds] built in
  built = [(doc_inflation, 37%Z)]
  ∧ again = (Ok tt, [(doc_inflation, 37%Z); (doc_bonds, 11%Z)])
  ∧ again.1 ≠ Raise AlreadyBuiltError
  ∧ ¬ ∃ e, again.1 = Raise e.
Proof.
  cbv zeta. split; [reflexivity|]. split; [reflexivity|].
  split; [discriminate|]. intros [e He]. discriminate He.
Qed.

Lemma initialize_on_built_collection_witness :
  let initialize := initialize_vector_store_with installed_chroma length_embedding in
  let built := (initialize [doc_inflation] []).2 in
  resets (installed_chroma (vector := Z))
  ∧ built = [(doc_inflation, 37%Z)]
  ∧ initialize [doc_bonds] built = (Ok tt, [(doc_bonds, 11%Z)])
  ∧ initialize [doc_bonds] built = initialize [doc_bonds] [].
Proof.
  cbv zeta.
  assert (resets (installed_chroma (vector := Z))) as Hresets
    by (intros c; reflexivity).
  split; [exact Hresets|]. split; [reflexivity|].
  destruct (initialize_on_built_collection installed_chroma length_embedding
              Hresets [doc_inflation] [doc_bonds] []) as [Hbuild Hsame].
  split; [exact Hbuild|exact Hsame].
Defined.

(** The claim of C9 as it was stated fails: on an empty list of chunks
    the build is refused, so [initialize_vector_store] raises after it
    has cleared the collection; and two chunks that carry one identifier
    leave one vector, not one per chunk. *)
Lemma initialize_vector_store_raises_on_no_chunks :
  let initialize := initialize_vector_store_with installed_chroma length_embedding in
  is_Ok (initialize [] [(doc_inflation, 37%Z)]).1 = false
  ∧ (initialize [] [(doc_inflation, 37%Z)]).2 = []
  ∧ is_Ok (initialize [doc_inflation; doc_untitled] []).1 = true
  ∧ length (initialize [doc_inflation; doc_untitled] []).2 = 1.
Proof. cbv zeta. repeat split; reflexivity. Qed.

Lemma initialize_vector_store_never_accumulates_witness :
  let initialize := initialize_vector_store_with installed_chroma length_embedding in
  let before :=
    collection_after installed_chroma length_embedding
      [[doc_inflation; doc_equities]; []] [] in
  resets (installed_chroma (vector := Z))
  ∧ initialize [doc_bonds] before = (Ok tt, [(doc_bonds, 11%Z)])
  ∧ initialize [doc_bonds] before = initialize [doc_bonds] [(doc_equities, 14%Z)].
Proof.
  cbv zeta.
  assert (resets (installed_chroma (vector := Z))) as Hresets
    by (intros c; reflexivity).
  split; [exact Hresets|].
  destruct (initialize_vector_store_never_accumulates installed_chroma
              length_embedding Hresets [[doc_inflation; doc_equities]; []]
              [doc_bonds] [] [(doc_equities, 14%Z)]) as (Hbuild & Hsame & _).
  split; [exact Hbuild|exact Hsame].
Defined.

Lemma reset_then_build_forgets_witness :
  let rebuilt :=
    ((initialize_vector_store length_embedding [doc_inflation; doc_equities] ;;;
      Chroma_reset_collection ;;;
      Chroma_from_documents [doc_bonds] (length_embedding EMBEDDING_MODEL)) []).2 in
  (query closeness 37%Z 3%Z rebuilt).1 = Ok [(doc_bonds, (-26)%Z)]
  ∧ (doc_inflation ∈ [doc_inflation; doc_equities])
  ∧ (doc_inflation ∉ [doc_bonds])
  ∧ (doc_inflation ∉ ([(doc_bonds, (-26)%Z)].*1)).
Proof.
  cbv zeta.
  assert (doc_inflation ∈ [doc_inflation; doc_equities]) as Hold by apply list_elem_of_here.
  assert (doc_inflation ∉ [doc_bonds]) as Hnew.
  { intros H. apply list_elem_of_singleton in H. discriminate H. }
  split; [reflexivity|]. split; [exact Hold|]. split; [exact Hnew|].
  destruct (reset_then_build_forgets length_embedding closeness
              [doc_inflation; doc_equities] [doc_bonds] [] 37%Z 3%Z)
    as (_ & _ & Hq & _).
  destruct (Hq [(doc_bonds, (-26)%Z)] eq_refl) as [_ Hnever].
  exact (Hnever doc_inflation Hold Hnew).
Defined.

(** The claim of C8 as it was stated fails: a readable pickle file whose
    documents share an identifier and of which one lacks the headline is
    loaded without any error. *)
Lemma load_documents_does_not_validate :
  let source := "../data/bloomberg_financial_news_1k.pkl" in
  let loaded := load_documents sample_open Ok source in
  loaded = Ok [doc_inflation; doc_untitled]
  ∧ ¬ unique_ids [doc_inflation; doc_untitled]
  ∧ ¬ has_required_metadata [doc_inflation; doc_untitled]
  ∧ loaded ≠ Raise (LoadError source).
Proof.
  cbv zeta. split; [reflexivity|]. split; [|split; [|discriminate]].
  - unfold unique_ids. intros H. apply NoDup_cons in H as [H _].
    apply H. apply list_elem_of_here.
  - unfold has_required_metadata. intros H.
    apply Forall_cons in H as [_ H]. apply Forall_cons in H as [[h H] _].
    discriminate H.
Qed.

Lemma load_documents_outcome_witness :
  let source := "../data/bloomberg_financial_news_1k.pkl" in
  sample_open source = Ok [doc_inflation; doc_untitled]
  ∧ load_documents sample_open Ok source = Ok [doc_inflation; doc_untitled]
  ∧ sample_open "../data" = Raise (IsADirectoryError "../data")
  ∧ load_documents sample_open Ok "../data" = Raise (IsADirectoryError "../data")
  ∧ sample_open "missing.pkl" = Raise (FileNotFoundError "missing.pkl")
  ∧ load_documents sample_open Ok "missing.pkl"
    = Raise (FileNotFoundError "missing.pkl").
Proof.
  cbv zeta.
  assert (sample_open "../data/bloomberg_financial_news_1k.pkl"
          = Ok [doc_inflation; doc_untitled]) as Hfile by reflexivity.
  assert (sample_open "../data" = Raise (IsADirectoryError "../data"))
    as Hdir by reflexivity.
  assert (sample_open "missing.pkl" = Raise (FileNotFoundError "missing.pkl"))
    as Hmissing by reflexivity.
  split; [exact Hfile|]. split.
  { destruct (load_documents_outcome sample_open (@Ok (list Document))
                "../data/bloomberg_financial_news_1k.pkl") as (_ & _ & Hok).
    exact (Hok _ _ Hfile eq_refl). }
  split; [exact Hdir|]. split.
  { destruct (load_documents_outcome sample_open (@Ok (list Document)) "../data")
      as (Hopen & _).
    exact (Hopen _ Hdir). }
  split; [exact Hmissing|].
  destruct (load_documents_outcome sample_open (@Ok (list Document)) "missing.pkl")
    as (Hopen & _).
  exact (Hopen _ Hmissing).
Defined.



(** The claim of C3 as it was stated fails on the class of the
    exception: a tool call that names a tool outside the tool table stops
    the turn with [KeyError], not with [UnknownToolError]. *)
Lemma unregistered_tool_raises_KeyError :
  let run :=
    run_turn (calling_model [call_unknown]) quoting_model sample_tools
      request initial_turn in
  tools_by_name sample_tools !! "web_search" = None
  ∧ run.1 = Raise (KeyError "web_search")
  ∧ run.1 ≠ Raise (UnknownToolError "web_search")
  ∧ ¬ ∃ e, run.1 = Raise e ∧ exn_class e = "UnknownToolError".
Proof.
  cbv zeta. split; [reflexivity|]. split; [reflexivity|]. split; [discriminate|].
  intros (e & He & Hclass).
  assert (e = KeyError "web_search") as ->.
  { vm_compute in He. by injection He as <-. }
  discriminate Hclass.
Qed.

Lemma unregistered_tool_aborts_witness :
  let rag_model := calling_model [call_unknown] in
  let run := run_turn rag_model quoting_model sample_tools request initial_turn in
  tool_calls (rag_model (request_messages request)) = [call_unknown]
  ∧ Forall (λ t, tool_name t ≠ "web_search") sample_tools
  ∧ run.1 = Raise (KeyError "web_search")
  ∧ phase run.2 = TOOL_REQUESTED
  ∧ tool_messages (messages run.2) = [].
Proof.
  cbv zeta.
  assert (Forall (λ t, tool_name t ≠ "web_search") sample_tools) as Hnone.
  { repeat constructor. discriminate. }
  split; [reflexivity|]. split; [exact Hnone|].
  destruct (unregistered_tool_aborts (calling_model [call_unknown]) quoting_model
              sample_tools request call_unknown [] eq_refl Hnone)
    as (Hraise & Hphase & _ & _ & Hmsgs).
  split; [exact Hraise|]. split; [exact Hphase|exact Hmsgs].
Defined.

Lemma tool_message_keeps_call_id_witness :
  let rag_model := calling_model [call_abc123; call_second] in
  let run := run_turn rag_model quoting_model sample_tools request initial_turn in
  tool_calls (rag_model (request_messages request)) = [call_abc123; call_second]
  ∧ tc_id call_abc123 = "abc123"
  ∧ ∃ text, tool_messages (messages run.2) = [ToolMessage text "abc123"].
Proof.
  cbv zeta. split; [reflexivity|]. split; [reflexivity|].
  exact (tool_message_keeps_call_id
           (calling_model [call_abc123; call_second]) quoting_model sample_tools
           request call_abc123 [call_second] eq_refl).
Defined.

Lemma missing_headline_raises_witness :
  let rag_model := calling_model [call_abc123] in
  let run := run_turn rag_model quoting_model untitled_tools request initial_turn in
  tool_calls (rag_model (request_messages request)) = [call_abc123]
  ∧ Exists (λ d, metadata d !! Headline = None) [doc_bonds; doc_untitled]
  ∧ documents_str [doc_bonds; doc_untitled] = Raise (KeyError "Headline")
  ∧ run.1 = Raise (KeyError "Headline")
  ∧ tool_messages (messages run.2) = [].
Proof.
  cbv zeta.
  assert (Exists (λ d, metadata d !! Headline = None) [doc_bonds; doc_untitled])
    as Hex by (apply Exists_cons_tl, Exists_cons_hd; reflexivity).
  split; [reflexivity|]. split; [exact Hex|].
  destruct (missing_headline_raises (calling_model [call_abc123]) quoting_model
              untitled_tools request call_abc123 []
              (mkTool "retrieval" (λ _, Ok [doc_bonds; doc_untitled]))
              [doc_bonds; doc_untitled] eq_refl eq_refl eq_refl) as [Hraise _].
  destruct (Hraise Hex) as (Hstr & Hrun & _ & Hmsgs).
  split; [exact Hstr|]. split; [exact Hrun|exact Hmsgs].
Defined.

(** * Further properties of the notebook's code *)

(** ** The tool table *)

Lemma foldl_insert_lookup_last (tools : list Tool) (m : gmap string Tool) name :
  foldl (λ m t, <[tool_name t := t]> m) m tools !! name
  = match last (filter (λ t, tool_name t = name) tools) with
    | Some t => Some t
    | None => m !! name
    end.
Proof.
  revert m. induction tools as [|t tools IH]; intros m; [done|].
  cbn [foldl]. rewrite IH, filter_cons.
  destruct (decide (tool_name t = name)) as [Heq|Hne].
  - rewrite last_cons.
    destruct (last (filter (λ t0, tool_name t0 = name) tools)); [done|].
    by rewrite <- Heq, lookup_insert_eq.
  - destruct (last (filter (λ t0, tool_name t0 = name) tools)); [done|].
    by rewrite lookup_insert_ne.
Qed.

Lemma last_filter_Some {A} (P : A → Prop) `{!∀ x, Decision (P x)} (l : list A) x :
  last (filter P l) = Some x → P x ∧ x ∈ l.
Proof.
  intros Hlast. apply last_Some_elem_of in Hlast.
  by apply list_elem_of_filter in Hlast.
Qed.

(** X1.  The tool table maps a name to the last tool of the list that
    carries it: a later tool replaces an earlier one of the same name. *)
Theorem tools_by_name_last (tools : list Tool) (name : string) :
  tools_by_name tools !! name = last (filter (λ t, tool_name t = name) tools).
Proof.
  unfold tools_by_name. rewrite foldl_insert_lookup_last, lookup_empty.
  by destruct (last _).
Qed.

(** X2.  Looking a name up in the tool table either returns a tool of the
    list that carries exactly that name, or raises [KeyError] with the
    name, and it raises only when no tool of the list carries the name. *)
Theorem lookup_tool_outcome (tools : list Tool) (name : string) :
  match lookup_tool (tools_by_name tools) name with
  | Ok t => tool_name t = name ∧ t ∈ tools
  | Raise e => e = KeyError name ∧ name ∉ tool_name <$> tools
  end.
Proof.
  unfold lookup_tool, tools_by_name.
  rewrite foldl_insert_lookup_last, lookup_empty.
  destruct (last (filter (λ t, tool_name t = name) tools)) as [t|] eqn:Hlast.
  - by apply last_filter_Some in Hlast.
  - split; [done|]. intros Hin.
    apply list_elem_of_fmap in Hin as (t & Hname & Ht).
    apply last_None in Hlast.
    assert (t ∈ filter (λ t, tool_name t = name) tools) as Hf
      by by apply list_elem_of_filter.
    rewrite Hlast in Hf. by apply not_elem_of_nil in Hf.
Qed.

(** X3.  When the tools of the list carry pairwise different names, every
    tool of the list is found under its own name. *)
Theorem tools_by_name_finds_every_tool (tools : list Tool) (t : Tool) :
  NoDup (tool_name <$> tools) →
  t ∈ tools →
  lookup_tool (tools_by_name tools) (tool_name t) = Ok t.
Proof.
  intros Hnd Ht. unfold lookup_tool, tools_by_name.
  rewrite foldl_insert_lookup_last, lookup_empty.
  destruct (last (filter (λ t0, tool_name t0 = tool_name t) tools)) as [t'|] eqn:Hlast.
  - apply last_filter_Some in Hlast as [Hname Ht'].
    f_equal. symmetry.
    apply list_elem_of_lookup in Ht as [i Hi], Ht' as [j Hj].
    assert (i = j) as ->.
    { eapply NoDup_lookup; [exact Hnd|..].
      - by rewrite list_lookup_fmap, Hi.
      - by rewrite list_lookup_fmap, Hj, <- Hname. }
    congruence.
  - apply last_None in Hlast.
    assert (t ∈ filter (λ t0, tool_name t0 = tool_name t) tools) as Hf
      by by apply list_elem_of_filter.
    rewrite Hlast in Hf. by apply not_elem_of_nil in Hf.
Qed.

(** ** Formatting *)

Lemma string_app_assoc (s1 s2 s3 : string) :
  (s1 +:+ s2) +:+ s3 = s1 +:+ s2 +:+ s3.
Proof.
  induction s1 as [|c s1 IH]; [done|].
  change (String.String c ((s1 +:+ s2) +:+ s3) = String.String c (s1 +:+ s2 +:+ s3)).
  by rewrite IH.
Qed.

Lemma string_concat_app (sep : string) (l1 l2 : list string) :
  l1 ≠ [] → l2 ≠ [] →
  String.concat sep (l1 ++ l2)
  = String.concat sep l1 +:+ sep +:+ String.concat sep l2.
Proof.
  intros Hl1 Hl2. induction l1 as [|x l1 IH]; [done|].
  destruct l1 as [|y l1].
  - destruct l2 as [|z l2]; [done|]. reflexivity.
  - change (String.concat sep ((x :: y :: l1) ++ l2))
      with (x +:+ sep +:+ String.concat sep ((y :: l1) ++ l2)).
    rewrite IH by done.
    change (String.concat sep (x :: y :: l1))
      with (x +:+ sep +:+ String.concat sep (y :: l1)).
    by rewrite !string_app_assoc.
Qed.

Lemma result_mapM_app {A B} (f : A → result B) (l1 l2 : list A) :
  result_mapM f (l1 ++ l2)
  = match result_mapM f l1 with
    | Raise e => Raise e
    | Ok ys1 =>
        match result_mapM f l2 with
        | Raise e => Raise e
        | Ok ys2 => Ok (ys1 ++ ys2)
        end
    end.
Proof.
  induction l1 as [|x l1 IH]; cbn [app result_mapM].
  - by destruct (result_mapM f l2).
  - destruct (f x) as [y|e]; [|done]. rewrite IH.
    destruct (result_mapM f l1) as [ys1|e]; [|done].
    by destruct (result_mapM f l2).
Qed.

Lemma result_mapM_length {A B} (f : A → result B) (l : list A) ys :
  result_mapM f l = Ok ys → length ys = length l.
Proof.
  revert ys. induction l as [|x l IH]; intros ys; cbn [result_mapM].
  - by intros [= <-].
  - destruct (f x) as [y|e]; [|done].
    destruct (result_mapM f l) as [ys'|e]; [|done].
    intros [= <-]. cbn. by rewrite (IH ys').
Qed.

(** X4.  Formatting two non-empty batches of documents at once gives the
    two formatted texts joined by a blank line; when a document lacks its
    headline the exception of the first batch that fails is the outcome. *)
Theorem documents_str_app (batch1 batch2 : list Document) :
  batch1 ≠ [] →
  batch2 ≠ [] →
  documents_str (batch1 ++ batch2)
  = match documents_str batch1, documents_str batch2 with
    | Ok text1, Ok text2 => Ok (text1 +:+ (nl +:+ nl) +:+ text2)
    | Raise e, _ => Raise e
    | Ok _, Raise e => Raise e
    end.
Proof.
  intros H1 H2. unfold documents_str. rewrite result_mapM_app.
  destruct (result_mapM format_document batch1) as [parts1|e] eqn:E1; [|done].
  destruct (result_mapM format_document batch2) as [parts2|e] eqn:E2; [|done].
  apply result_mapM_length in E1, E2.
  rewrite string_concat_app; [done|..].
  - intros ->. by destruct batch1.
  - intros ->. by destruct batch2.
Qed.

(** X5.  The preview of the first document raises [IndexError] on an
    empty list of documents; on any other list it depends on the first
    document only, and it is the text that the formatting of the tool
    result produces for that document without the final line feed, with
    the same [KeyError] when the headline is missing. *)
Theorem doc_str_agrees_with_documents_str :
  doc_str [] = Raise (IndexError "list index out of range")
  ∧ ∀ (doc : Document) (rest : list Document),
      doc_str (doc :: rest) = doc_str [doc]
      ∧ documents_str [doc]
        = match doc_str (doc :: rest) with
          | Ok text => Ok (text +:+ nl)
          | Raise e => Raise e
          end.
Proof.
  split; [done|]. intros doc rest. split; [done|].
  unfold documents_str, doc_str. cbn [result_mapM]. unfold format_document.
  destruct (metadata doc !! Headline) as [headline|]; [|done].
  cbn [String.concat]. by rewrite !string_app_assoc.
Qed.

(** ** Exceptions of the tool *)

Section TurnFurtherProperties.
Variable rag_model : list message → ai_response.
Variable base_model : list message → ai_response.
Variable tools : list Tool.

(** X11.  An exception that the tool raises reaches the caller of the
    turn unchanged: the tool has been invoked once, the plain model is
    not called, and the conversation holds no tool message. *)
Theorem tool_exception_propagates (request : string) (tc : tool_call)
    (rest : list tool_call) (t : Tool) (e : exn) :
  tool_calls (rag_model (request_messages request)) = tc :: rest →
  tools_by_name tools !! tc_name tc = Some t →
  tool_invoke t (tc_args tc) = Raise e →
  let run := run_turn rag_model base_model tools request initial_turn in
  run.1 = Raise e
  ∧ trace run.2 = [InvokeModel true; LookupTool (tc_name tc); InvokeTool tc]
  ∧ messages run.2 = request_messages request.
Proof.
  intros Hcalls Ht He run. unfold run.
  rewrite (run_turn_tool_call rag_model base_model tools request tc rest Hcalls).
  unfold lookup_tool. by rewrite Ht, He.
Qed.

End TurnFurtherProperties.

(** ** The tool table of the notebook *)

(** X15.  With the notebook's list of tools, which holds the retrieval
    tool alone, a lookup returns exactly for the name ["retrieval"]: a
    tool call under any other name raises [KeyError] with that name. *)
Theorem notebook_tools_only_retrieval {vector : Type}
    (OpenAIEmbeddings : string → string → vector)
    (similarity : vector → vector → Z) (c : collection vector) (name : string) :
  let tools := [retrieval OpenAIEmbeddings similarity c] in
  (name = "retrieval" →
     lookup_tool (tools_by_name tools) name
     = Ok (retrieval OpenAIEmbeddings similarity c))
  ∧ (name ≠ "retrieval" →
     lookup_tool (tools_by_name tools) name = Raise (KeyError name)).
Proof.
  cbv zeta. unfold lookup_tool, tools_by_name. cbn [foldl retrieval tool_name].
  split.
  - intros ->. by rewrite lookup_insert_eq.
  - intros Hne. by rewrite lookup_insert_ne, lookup_empty.
Qed.

(** * The further properties on the sample data *)

Lemma tools_by_name_finds_every_tool_witness :
  let tools := [bonds_tool; mkTool "news" (λ _, Ok [doc_equities])] in
  NoDup (tool_name <$> tools)
  ∧ bonds_tool ∈ tools
  ∧ lookup_tool (tools_by_name tools) "retrieval" = Ok bonds_tool.
Proof.
  cbv zeta.
  assert (NoDup (tool_name <$> [bonds_tool; mkTool "news" (λ _, Ok [doc_equities])]))
    as Hnd.
  { apply NoDup_cons. split; [|apply NoDup_singleton].
    intros H. apply list_elem_of_singleton in H. discriminate H. }
  assert (bonds_tool ∈ [bonds_tool; mkTool "news" (λ _, Ok [doc_equities])])
    as Hin by apply list_elem_of_here.
  split; [exact Hnd|]. split; [exact Hin|].
  exact (tools_by_name_finds_every_tool _ bonds_tool Hnd Hin).
Defined.

Lemma documents_str_app_witness :
  [doc_bonds] ≠ []
  ∧ [doc_equities] ≠ []
  ∧ documents_str ([doc_bonds] ++ [doc_equities])
    = Ok (("Bonds" +:+ nl +:+ nl +:+ "Bond yields" +:+ nl)
          +:+ (nl +:+ nl)
          +:+ ("Equities" +:+ nl +:+ nl +:+ "Equities rally" +:+ nl)).
Proof.
  assert ([doc_bonds] ≠ []) as H1 by discriminate.
  assert ([doc_equities] ≠ []) as H2 by discriminate.
  split; [exact H1|]. split; [exact H2|].
  exact (documents_str_app [doc_bonds] [doc_equities] H1 H2).
Defined.

Lemma tool_exception_propagates_witness :
  let rag_model := calling_model [call_abc123] in
  let run := run_turn rag_model quoting_model [failing_tool] request initial_turn in
  tool_calls (rag_model (request_messages request)) = [call_abc123]
  ∧ tools_by_name [failing_tool] !! "retrieval" = Some failing_tool
  ∧ run.1 = Raise (Exn "TimeoutError" "embedding service")
  ∧ messages run.2 = request_messages request.
Proof.
  cbv zeta. split; [reflexivity|]. split; [reflexivity|].
  destruct (tool_exception_propagates (calling_model [call_abc123]) quoting_model
              [failing_tool] request call_abc123 [] failing_tool
              (Exn "TimeoutError" "embedding service") eq_refl eq_refl eq_refl)
    as (Hraise & _ & Hmsgs).
  split; [exact Hraise|exact Hmsgs].
Defined.

Lemma notebook_tools_only_retrieval_witness :
  let tools := [retrieval length_embedding closeness (embedded length_embedding sample_corpus)] in
  "web_search" ≠ "retrieval"
  ∧ lookup_tool (tools_by_name tools) "web_search" = Raise (KeyError "web_search").
Proof.
  cbv zeta.
  assert ("web_search" ≠ "retrieval") as Hne by discriminate.
  split; [exact Hne|].
  destruct (notebook_tools_only_retrieval length_embedding closeness
              (embedded length_embedding sample_corpus) "web_search") as [_ Hother].
  exact (Hother Hne).
Defined.
